(** * Order-to-delivery pipeline of [app.py]: embedding and properties

    The business-logic functions of [app.py] ([validate_order],
    [check_inventory], [process_payment], [fulfill_order],
    [initiate_shipment], [confirm_delivery]) and the order processing flow
    that calls them are embedded over an explicit program state: the two
    module globals the functions read and write ([PRODUCTS],
    [PROCESSED_ORDERS]) and the list of status boxes rendered on the page.
    The order placement that builds the order dict, the two stock
    displays of the catalog and a whole run of the script, which assigns
    the globals afresh before anything else, are embedded as well.

    Python integers are unbounded, so they are [Z].  The catalog is a [dict]
    keyed by product id, hence a [gmap string Product]; the processed orders
    are a [set] of strings, hence a [gset string].  A subscript on a missing
    key raises [KeyError] and [st.stop()] unwinds the script, so stateful
    code lives in a small state-and-exception monad. *)

From Stdlib Require Import ZArith Ascii String List Lia.
From stdpp Require Import base gmap strings pretty.

Set Warnings "-clear-no-such-hyp".

Local Open Scope string_scope.
Local Open Scope Z_scope.

(** ** Business rule constants *)

Definition MAX_ORDER_AMOUNT : Z := 5000.
Definition MIN_ORDER_QUANTITY : Z := 1.
Definition SERVICEABLE_ZONES : list string := ["IN"].

(** ** Data model *)

(** One entry of the catalog: the inner dict of [PRODUCTS]. *)
Record Product := mkProduct {
  name : string;
  price : Z;
  stock : Z;
  image : string;
  description : string
}.

(** The order dict.  [validate_order] reads the zone with
    [order.get("delivery_zone", "IN")], so that key alone may be absent. *)
Record Order := mkOrder {
  order_id : string;
  product_id : string;
  quantity : Z;
  total_amount : Z;
  delivery_zone : option string
}.

(** What the page shows: [st.error], [st.success] and [st.info] boxes. *)
Inductive Status :=
| st_error (msg : string)
| st_success (msg : string)
| st_info (msg : string).

Record State := mkState {
  PRODUCTS : gmap string Product;
  PROCESSED_ORDERS : gset string;
  page : list Status
}.

Definition initial_catalog : gmap string Product :=
  <["P001" := mkProduct "Wireless Mouse" 799 15
      "https://cdn-icons-png.flaticon.com/512/2919/2919592.png"
      "Ergonomic wireless mouse with adjustable DPI and long battery life."]>
  (<["P002" := mkProduct "Mechanical Keyboard" 2499 5
      "https://cdn-icons-png.flaticon.com/512/2920/2920244.png"
      "Compact mechanical keyboard with tactile switches and RGB backlight."]>
  (<["P003" := mkProduct "USB-C Charger" 999 0
      "https://cdn-icons-png.flaticon.com/512/2910/2910768.png"
      "Fast charging USB-C charger compatible with phones and laptops."]>
  (<["P004" := mkProduct "Noise Cancelling Headphones" 5999 8
      "https://cdn-icons-png.flaticon.com/512/2921/2921822.png"
      "Over-ear headphones with active noise cancellation and rich sound."]>
  (<["P005" := mkProduct "Laptop Stand" 1299 20
      "https://cdn-icons-png.flaticon.com/512/2920/2920329.png"
      "Adjustable aluminum laptop stand for better posture and airflow."]>
  ∅)))).

Definition initial_state : State :=
  {| PRODUCTS := initial_catalog; PROCESSED_ORDERS := ∅; page := [] |}.

(** ** State and exception monad *)

Inductive exn :=
| KeyError (key : string)
| StopException.

Inductive outcome (A : Type) :=
| Returned (a : A) (s : State)
| Raised (e : exn) (s : State).
Arguments Returned {A} a s.
Arguments Raised {A} e s.

Definition M (A : Type) : Type := State → outcome A.

Definition raise {A} (e : exn) : M A := λ s, Raised e s.

#[global] Instance M_ret : MRet M := λ A a s, Returned a s.
#[global] Instance M_bind : MBind M := λ A B k m s,
  match m s with
  | Returned a s' => k a s'
  | Raised e s' => Raised e s'
  end.

(** The state an execution ends in, whether it returned or raised. *)
Definition final_state {A} (o : outcome A) : State :=
  match o with Returned _ s => s | Raised _ s => s end.

Definition get_products : M (gmap string Product) := λ s, Returned (PRODUCTS s) s.
Definition get_processed : M (gset string) := λ s, Returned (PROCESSED_ORDERS s) s.
Definition put_products (c : gmap string Product) : M unit :=
  λ s, Returned tt {| PRODUCTS := c;
                      PROCESSED_ORDERS := PROCESSED_ORDERS s;
                      page := page s |}.

(** [PRODUCTS[pid]]: the subscript raises [KeyError] on a missing key. *)
Definition products_getitem (pid : string) : M Product :=
  c ← get_products;
  match c !! pid with
  | Some p => mret p
  | None => raise (KeyError pid)
  end.

(** [PROCESSED_ORDERS.add(oid)] *)
Definition processed_add (oid : string) : M unit :=
  λ s, Returned tt {| PRODUCTS := PRODUCTS s;
                      PROCESSED_ORDERS := {[oid]} ∪ PROCESSED_ORDERS s;
                      page := page s |}.

Definition render (b : Status) : M unit :=
  λ s, Returned tt {| PRODUCTS := PRODUCTS s;
                      PROCESSED_ORDERS := PROCESSED_ORDERS s;
                      page := page s ++ [b] |}.

(** [st.stop()] *)
Definition st_stop {A} : M A := raise StopException.

(** ** Business logic modules *)

(** [in] on [SERVICEABLE_ZONES] *)
Definition zone_serviceable (z : string) : bool :=
  existsb (String.eqb z) SERVICEABLE_ZONES.

Definition validate_order (order : Order) : M (bool * string) :=
  processed ← get_processed;
  if String.eqb (order_id order) ""
  then mret (false, "Invalid Order ID")
  else if decide (order_id order ∈ processed)
  then mret (false, "Duplicate order detected")
  else if quantity order <? MIN_ORDER_QUANTITY
  then mret (false, "Order quantity below minimum threshold")
  else if total_amount order >? MAX_ORDER_AMOUNT
  then mret (false, "Order amount exceeds risk threshold")
  else if negb (zone_serviceable (default "IN" (delivery_zone order)))
  then mret (false, "Delivery address not serviceable")
  else mret (true, "Order validated successfully").

Definition check_inventory (order : Order) : M (bool * string) :=
  product ← products_getitem (product_id order);
  if stock product >=? quantity order
  then mret (true, "Stock available (" ++ pretty (stock product) ++ " units)")
  else mret (false, "Out of stock").

Definition process_payment (total_amount : Z) : bool * string :=
  if total_amount <=? MAX_ORDER_AMOUNT
  then (true, "Payment successful")
  else (false, "Payment failed due to risk threshold").

(** The catalog entry after [q] units were taken from it. *)
Definition take_stock (q : Z) (product : Product) : Product :=
  {| name := name product;
     price := price product;
     stock := stock product - q;
     image := image product;
     description := description product |}.

(** [PRODUCTS[pid]["stock"] -= q]: the inner dict is fetched (which may
    raise) and its stock entry rewritten in place, the other entries kept. *)
Definition fulfill_order (order : Order) : M string :=
  product ← products_getitem (product_id order);
  c ← get_products;
  put_products (<[product_id order := take_stock (quantity order) product]> c);;
  mret "Order packed successfully".

Definition confirm_delivery : string := "Order delivered successfully".

(** *** Shipment: [f"TRK-{uuid.uuid4().hex[:8].upper()}"]

    [uuid.uuid4()] draws 16 random bytes, reads them as one big-endian
    integer and overwrites the variant and version bits; [.hex] prints that
    integer as 32 lowercase hexadecimal digits, most significant first.  The
    random draw is the parameter [rnd]. *)

Definition uuid4 (rnd : Z) : Z :=
  Z.lor
    (Z.land
       (Z.lor (Z.land rnd (Z.lnot (Z.shiftl 0xc000 48))) (Z.shiftl 0x8000 48))
       (Z.lnot (Z.shiftl 0xf000 64)))
    (Z.shiftl 4 76).

Definition hex_digit (d : Z) : ascii :=
  if d <? 10 then ascii_of_nat (Z.to_nat (48 + d))
  else ascii_of_nat (Z.to_nat (87 + d)).

(** The [n] low hexadecimal digits of [u], most significant first. *)
Fixpoint hex_digits (n : nat) (u : Z) : string :=
  match n with
  | O => EmptyString
  | S k => String (hex_digit (Z.land (Z.shiftr u (4 * Z.of_nat k)) 15))
                  (hex_digits k u)
  end.

Definition uuid_hex (u : Z) : string := hex_digits 32 u.

(** [s[:n]] *)
Definition str_prefix (n : nat) (s : string) : string := substring 0 n s.

(** [c.upper()] on an ASCII character *)
Definition char_upper (c : ascii) : ascii :=
  let n := nat_of_ascii c in
  if ((97 <=? n) && (n <=? 122))%nat then ascii_of_nat (n - 32) else c.

Fixpoint str_upper (s : string) : string :=
  match s with
  | EmptyString => EmptyString
  | String c r => String (char_upper c) (str_upper r)
  end.

Definition initiate_shipment (rnd : Z) : string :=
  "TRK-" ++ str_upper (str_prefix 8 (uuid_hex (uuid4 rnd))).

(** ** Order processing flow

    The body of the [Submit Order] branch.  [time.sleep] has no effect on
    the state and is left out; so are the page decorations around the
    status boxes. *)

Definition submit_order (order : Order) (rnd : Z) : M unit :=
  '(valid, msg) ← validate_order order;
  (if negb valid then render (st_error msg);; st_stop else mret tt);;
  processed_add (order_id order);;
  render (st_success msg);;
  '(stock_ok, msg) ← check_inventory order;
  (if negb stock_ok then render (st_error msg);; st_stop else mret tt);;
  render (st_success msg);;
  '(payment_ok, msg) ← mret (process_payment (total_amount order));
  (if negb payment_ok then render (st_error msg);; st_stop else mret tt);;
  render (st_success msg);;
  packed ← fulfill_order order;
  render (st_success packed);;
  tracking_id ← mret (initiate_shipment rnd);
  render (st_info ("📦 Shipment Initiated | Tracking ID: " ++ tracking_id));;
  render (st_success confirm_delivery).

(** The flow run on the globals as some earlier flow left them.  The
    script itself never does this: it has no loop around the flow, and
    every run assigns [PROCESSED_ORDERS] and [PRODUCTS] afresh before the
    flow (see [run_script] below).  [step] is therefore an
    over-approximation of what a run can do, used for invariants only: a
    property of all the states below holds in particular of the states of
    the script. *)
Definition step (s s' : State) : Prop :=
  ∃ order rnd, s' = final_state (submit_order order rnd s).

(** The states any number of flows on kept globals can produce, from the
    globals as the module initialises them; a superset of the states the
    script is ever in. *)
Definition reachable (s : State) : Prop := rtc step initial_state s.

(** ** Predicates used in the statements *)

Fixpoint all_chars (P : ascii → bool) (s : string) : bool :=
  match s with
  | EmptyString => true
  | String c r => P c && all_chars P r
  end.

Definition is_digit (c : ascii) : bool :=
  let n := nat_of_ascii c in ((48 <=? n) && (n <=? 57))%nat.
Definition is_upper_letter (c : ascii) : bool :=
  let n := nat_of_ascii c in ((65 <=? n) && (n <=? 90))%nat.
Definition is_upper_alnum (c : ascii) : bool := is_digit c || is_upper_letter c.

Definition is_lower_hex (c : ascii) : bool :=
  let n := nat_of_ascii c in
  is_digit c || ((97 <=? n) && (n <=? 102))%nat.

Definition stock_nonneg (c : gmap string Product) : Prop :=
  ∀ pid p, c !! pid = Some p → 0 ≤ stock p.

(** ** Concrete orders and states used in the examples *)

Definition mouse_order : Order :=
  mkOrder "ORD-A1B2C3" "P001" 2 1598 (Some "IN").
Definition charger_order : Order :=
  mkOrder "ORD-0F0F0F" "P003" 1 999 (Some "IN").
Definition headphones_order : Order :=
  mkOrder "ORD-123ABC" "P004" 1 5999 (Some "IN").

Definition after_mouse : State :=
  final_state (submit_order mouse_order 0x0123456789abcdef0123456789abcdef initial_state).

(** A second order that reuses the id of [mouse_order]. *)
Definition replayed_headphones_order : Order :=
  mkOrder "ORD-A1B2C3" "P004" 1 5999 (Some "IN").
Definition replayed_empty_cart : Order :=
  mkOrder "ORD-A1B2C3" "P001" 0 0 (Some "IN").
Definition anonymous_headphones_order : Order :=
  mkOrder "" "P004" 1 5999 (Some "IN").
Definition anonymous_empty_cart : Order :=
  mkOrder "" "P001" 0 0 (Some "IN").
Definition bulk_order : Order :=
  mkOrder "ORD-77AA10" "P005" 4 5196 None.
Definition empty_cart : Order :=
  mkOrder "ORD-5E5E5E" "P002" 0 0 (Some "IN").

Definition free_charger_order : Order :=
  mkOrder "ORD-C0FFEE" "P003" 0 0 (Some "IN").
Definition ghost_order : Order :=
  mkOrder "ORD-9D9D9D" "P999" 1 100 (Some "IN").
Definition usb_c_charger : Product :=
  mkProduct "USB-C Charger" 999 0
    "https://cdn-icons-png.flaticon.com/512/2910/2910768.png"
    "Fast charging USB-C charger compatible with phones and laptops.".
Definition wireless_mouse : Product :=
  mkProduct "Wireless Mouse" 799 15
    "https://cdn-icons-png.flaticon.com/512/2919/2919592.png"
    "Ergonomic wireless mouse with adjustable DPI and long battery life.".

(** A state no run produces: the empty id among the processed orders. *)
Definition forged_state : State :=
  {| PRODUCTS := initial_catalog; PROCESSED_ORDERS := {[""]}; page := [] |}.

(** ** Order placement

    The page draws an order id, reads the product from the select box and
    the quantity from the number input, and computes the amount from the
    catalog price; the [Submit Order] button then builds the order dict and
    runs the processing flow on it. *)

(** [f"ORD-{uuid.uuid4().hex[:6].upper()}"] *)
Definition new_order_id (rnd : Z) : string :=
  "ORD-" ++ str_upper (str_prefix 6 (uuid_hex (uuid4 rnd))).

(** [selected_product = PRODUCTS[product_id]],
    [total_amount = selected_product["price"] * quantity], the
    [st.info] box with the amount, and the dict literal of the submit
    branch. *)
Definition build_order (id_rnd : Z) (pid : string) (qty : Z) : M Order :=
  selected_product ← products_getitem pid;
  render (st_info ("💳 Total Amount Payable: ₹"
                   ++ pretty (price selected_product * qty)));;
  mret {| order_id := new_order_id id_rnd;
          product_id := pid;
          quantity := qty;
          total_amount := price selected_product * qty;
          delivery_zone := Some "IN" |}.

(** Order placement followed by the flow: what a run does from the order
    id on when the button is pressed. *)
Definition place_order (id_rnd : Z) (pid : string) (qty : Z) (ship_rnd : Z) : M unit :=
  order ← build_order id_rnd pid qty;
  submit_order order ship_rnd.

(** ** Stock display

    The stock line of a catalog card and the test that puts the
    "Currently out of stock" box on the details panel. *)

Definition catalog_stock_line (product : Product) : string :=
  if stock product >? 0
  then "📦 Stock: " ++ pretty (stock product)
  else "❌ Out of Stock".

Definition details_out_of_stock (product : Product) : bool :=
  stock product =? 0.

(** The state [s] with the amount box of the order placement on the page. *)
Definition show_total (total : Z) (s : State) : State :=
  {| PRODUCTS := PRODUCTS s;
     PROCESSED_ORDERS := PROCESSED_ORDERS s;
     page := page s ++ [st_info ("💳 Total Amount Payable: ₹" ++ pretty total)] |}.

(** ** A run of the script

    Streamlit executes the file from its first line on every interaction.
    A run therefore assigns [PROCESSED_ORDERS] and [PRODUCTS] afresh and
    draws the page from nothing; what it receives from outside are the
    widget values, the button that was clicked, the product kept in
    [st.session_state] and the random draws. *)

Inductive Click :=
| no_click
| view_details (pid : string)
| submit_click.

Record Widgets := mkWidgets {
  session_selected : option string;
  clicked : Click;
  selectbox_product : string;
  number_input_quantity : Z;
  order_uuid : Z;
  shipment_uuid : Z
}.

(** The assignments to the module globals at the top of the file. *)
Definition start_run : M unit := λ _, Returned tt initial_state.

(** The catalog loop draws one [View Details] button per product; the
    clicked one stores its product id in the session state. *)
Definition selected_after_catalog (c : gmap string Product) (w : Widgets) : option string :=
  match clicked w with
  | view_details pid =>
      match c !! pid with
      | Some _ => Some pid
      | None => session_selected w
      end
  | _ => session_selected w
  end.

(** The details panel: shown when the session holds a (non-empty) product
    id, with the error box when that product has no stock. *)
Definition show_details (selected : option string) : M unit :=
  match selected with
  | Some pid =>
      if String.eqb pid "" then mret tt
      else
        product ← products_getitem pid;
        if details_out_of_stock product
        then render (st_error "Currently out of stock")
        else mret tt
  | None => mret tt
  end.

(** Everything below the assignments to the globals: catalog, details
    panel, order placement and, when [Submit Order] was clicked, the
    flow. *)
Definition script_body (w : Widgets) : M unit :=
  c ← get_products;
  show_details (selected_after_catalog c w);;
  order ← build_order (order_uuid w) (selectbox_product w) (number_input_quantity w);
  match clicked w with
  | submit_click => submit_order order (shipment_uuid w)
  | _ => mret tt
  end.

Definition run_script (w : Widgets) : M unit :=
  start_run;;
  script_body w.

(** Two clicks on [Submit Order] with the same product, quantity and
    order id. *)
Definition mouse_widgets : Widgets :=
  mkWidgets None submit_click "P001" 2 0xa1b2c3ff0000000000000000000000 7.
Definition after_first_run : State :=
  final_state (run_script mouse_widgets initial_state).

(** The value a call returned, if it returned. *)
Definition returned {A} (o : outcome A) : option A :=
  match o with Returned a _ => Some a | Raised _ _ => None end.

Definition keyboard_order_elsewhere : Order :=
  mkOrder "ORD-A1B2C3" "P002" 2 1598 (Some "IN").

(** [p] is the entry [p0] after some units were sold: the same goods with
    no more stock than before. *)
Definition sold_from (p0 p : Product) : Prop :=
  name p = name p0 ∧ price p = price p0 ∧ image p = image p0
  ∧ description p = description p0 ∧ stock p ≤ stock p0.

Definition catalog_sold_from (c0 c : gmap string Product) : Prop :=
  ∀ pid : string, option_Forall2 sold_from (c0 !! pid) (c !! pid).

(** The order passes validation in state [s]. *)
Definition accepted (order : Order) (s : State) : Prop :=
  validate_order order s = Returned (true, "Order validated successfully") s.

(** Reading a string of uppercase hexadecimal digits back as a number;
    used only to tell tracking ids apart. *)
Definition hex_char_value (c : ascii) : Z :=
  let n := Z.of_nat (nat_of_ascii c) in
  if n <? 58 then n - 48 else n - 55.

Fixpoint hex_value_acc (acc : Z) (s : string) : Z :=
  match s with
  | EmptyString => acc
  | String c r => hex_value_acc (16 * acc + hex_char_value c) r
  end.

Definition restock_order : Order :=
  mkOrder "ORD-A1B2C3" "P001" (-2) (-1598) (Some "IN").

Definition oversold_mouse : Product :=
  mkProduct "Wireless Mouse" 799 (-1)
    "https://cdn-icons-png.flaticon.com/512/2919/2919592.png"
    "Ergonomic wireless mouse with adjustable DPI and long battery life.".

Example pretty_ex : pretty (15 : Z) = "15" ∧ pretty (-3 : Z) = "-3" ∧ pretty (0 : Z) = "0".
Proof. repeat split; vm_compute; reflexivity. Qed.

Example shipment_ex :
  initiate_shipment 0x0123456789abcdef0123456789abcdef = "TRK-01234567"
  ∧ initiate_shipment 0xdeadbeef000000000000000000000000 = "TRK-DEADBEEF"
  ∧ uuid_hex (uuid4 0xffffffffffffffffffffffffffffffff) = "ffffffffffff4fffbfffffffffffffff".
Proof. repeat split; vm_compute; reflexivity. Qed.

Example mouse_ex :
  stock <$> (PRODUCTS after_mouse !! "P001") = Some 13
  ∧ PROCESSED_ORDERS after_mouse = {["ORD-A1B2C3"]}
  ∧ page after_mouse =
      [st_success "Order validated successfully";
       st_success "Stock available (15 units)";
       st_success "Payment successful";
       st_success "Order packed successfully";
       st_info "📦 Shipment Initiated | Tracking ID: TRK-01234567";
       st_success "Order delivered successfully"].
Proof. repeat split; vm_compute; reflexivity. Qed.

Example charger_ex :
  submit_order charger_order 7 initial_state =
  Raised StopException
    {| PRODUCTS := initial_catalog;
       PROCESSED_ORDERS := {["ORD-0F0F0F"]} ∪ ∅;
       page := [st_success "Order validated successfully"; st_error "Out of stock"] |}.
Proof. reflexivity. Qed.

Example headphones_ex :
  submit_order headphones_order 7 initial_state =
  Raised StopException
    {| PRODUCTS := initial_catalog;
       PROCESSED_ORDERS := ∅;
       page := [st_error "Order amount exceeds risk threshold"] |}.
Proof. reflexivity. Qed.

(** * Properties *)

(** ** Order validator *)

Ltac run_M :=
  unfold mbind, M_bind, mret, M_ret, raise, st_stop,
    get_processed, get_products, put_products, processed_add, render in *;
  simpl in *.

(** The validator's checks as one decision table: the result is a function
    of the five tests, taken in the order of the source, and the state is
    handed back as it was. *)
Lemma validate_order_unfold (order : Order) (s : State) :
  validate_order order s =
  Returned
    (if String.eqb (order_id order) "" then (false, "Invalid Order ID")
     else if decide (order_id order ∈ PROCESSED_ORDERS s)
     then (false, "Duplicate order detected")
     else if quantity order <? MIN_ORDER_QUANTITY
     then (false, "Order quantity below minimum threshold")
     else if total_amount order >? MAX_ORDER_AMOUNT
     then (false, "Order amount exceeds risk threshold")
     else if negb (zone_serviceable (default "IN" (delivery_zone order)))
     then (false, "Delivery address not serviceable")
     else (true, "Order validated successfully"))
    s.
Proof.
  unfold validate_order. run_M.
  repeat (case_match; try reflexivity).
Qed.

Lemma validate_order_pure (order : Order) (s : State) :
  final_state (validate_order order s) = s.
Proof. now rewrite validate_order_unfold. Qed.

(** What a successful validation tells about the order. *)
Lemma validate_order_accepts (order : Order) (s s' : State) (msg : string) :
  validate_order order s = Returned (true, msg) s' →
  order_id order ≠ "" ∧ (order_id order ∉ PROCESSED_ORDERS s)
  ∧ MIN_ORDER_QUANTITY ≤ quantity order
  ∧ total_amount order ≤ MAX_ORDER_AMOUNT
  ∧ zone_serviceable (default "IN" (delivery_zone order)) = true
  ∧ s' = s.
Proof.
  rewrite validate_order_unfold.
  destruct (String.eqb_spec (order_id order) ""); [discriminate|].
  destruct (decide _); [discriminate|].
  destruct (Z.ltb_spec (quantity order) MIN_ORDER_QUANTITY); [discriminate|].
  destruct (Z.gtb_spec (total_amount order) MAX_ORDER_AMOUNT); [discriminate|].
  destruct (zone_serviceable _); [|discriminate].
  intros [= _ <-]. repeat split; auto; lia.
Qed.

Lemma nonempty_eqb (x : string) : x ≠ "" → String.eqb x "" = false.
Proof. intros H. now apply String.eqb_neq. Qed.

(** C1 (as stated) fails: an order above the ceiling is turned away by an
    earlier check when its id is empty or was already processed, and then
    carries that check's reason. *)
Lemma validate_order_amount_not_first :
  total_amount anonymous_headphones_order > 5000
  ∧ validate_order anonymous_headphones_order initial_state
    = Returned (false, "Invalid Order ID") initial_state
  ∧ validate_order anonymous_headphones_order initial_state
    ≠ Returned (false, "Order amount exceeds risk threshold") initial_state
  ∧ total_amount replayed_headphones_order > 5000
  ∧ validate_order replayed_headphones_order after_mouse
    = Returned (false, "Duplicate order detected") after_mouse
  ∧ validate_order replayed_headphones_order after_mouse
    ≠ Returned (false, "Order amount exceeds risk threshold") after_mouse.
Proof.
  repeat split; try reflexivity; discriminate.
Qed.

(** C1 (amended): an order above 5000 whose id is non-empty and not yet
    processed and whose quantity is at least 1 is rejected with the
    risk-threshold reason, whatever its product and delivery zone; the
    state is left as it was. *)
Theorem validate_order_amount_ceiling (order : Order) (s : State) :
  total_amount order > 5000 →
  order_id order ≠ "" →
  order_id order ∉ PROCESSED_ORDERS s →
  1 ≤ quantity order →
  validate_order order s
  = Returned (false, "Order amount exceeds risk threshold") s.
Proof.
  intros Hamt Hid Hnew Hqty. rewrite validate_order_unfold.
  rewrite (nonempty_eqb _ Hid).
  destruct (decide _) as [Hin|_]; [contradiction|].
  destruct (Z.ltb_spec (quantity order) MIN_ORDER_QUANTITY) as [Hlt|_];
    [unfold MIN_ORDER_QUANTITY in Hlt; lia|].
  destruct (Z.gtb_spec (total_amount order) MAX_ORDER_AMOUNT) as [_|Hle];
    [reflexivity|unfold MAX_ORDER_AMOUNT in Hle; lia].
Qed.

Lemma validate_order_amount_ceiling_witness :
  validate_order headphones_order initial_state
  = Returned (false, "Order amount exceeds risk threshold") initial_state.
Proof.
  apply (validate_order_amount_ceiling headphones_order initial_state).
  - simpl. lia.
  - discriminate.
  - apply not_elem_of_empty.
  - simpl. lia.
Defined.

(** Whatever the other fields, an order above the ceiling never passes. *)
Lemma validate_order_amount_rejected (order : Order) (s : State) (r : bool * string) :
  total_amount order > 5000 →
  validate_order order s = Returned r s → r.1 = false.
Proof.
  intros Hamt. rewrite validate_order_unfold.
  destruct (Z.gtb_spec (total_amount order) MAX_ORDER_AMOUNT) as [_|Hle];
    [|unfold MAX_ORDER_AMOUNT in Hle; lia].
  intros [= <-]. repeat (case_match; try reflexivity).
Qed.

(** C2 (as stated) fails for the same reason: the id checks come first. *)
Lemma validate_order_quantity_not_first :
  quantity anonymous_empty_cart < 1
  ∧ validate_order anonymous_empty_cart initial_state
    = Returned (false, "Invalid Order ID") initial_state
  ∧ validate_order anonymous_empty_cart initial_state
    ≠ Returned (false, "Order quantity below minimum threshold") initial_state
  ∧ quantity replayed_empty_cart < 1
  ∧ validate_order replayed_empty_cart after_mouse
    = Returned (false, "Duplicate order detected") after_mouse
  ∧ validate_order replayed_empty_cart after_mouse
    ≠ Returned (false, "Order quantity below minimum threshold") after_mouse.
Proof.
  repeat split; try reflexivity; discriminate.
Qed.

(** C2 (amended): an order with quantity below 1 whose id is non-empty and
    not yet processed is rejected with "Order quantity below minimum
    threshold", whatever its amount, product and delivery zone. *)
Theorem validate_order_quantity_floor (order : Order) (s : State) :
  quantity order < 1 →
  order_id order ≠ "" →
  order_id order ∉ PROCESSED_ORDERS s →
  validate_order order s
  = Returned (false, "Order quantity below minimum threshold") s.
Proof.
  intros Hqty Hid Hnew. rewrite validate_order_unfold.
  rewrite (nonempty_eqb _ Hid).
  destruct (decide _) as [Hin|_]; [contradiction|].
  destruct (Z.ltb_spec (quantity order) MIN_ORDER_QUANTITY) as [_|Hge];
    [reflexivity|unfold MIN_ORDER_QUANTITY in Hge; lia].
Qed.

Lemma validate_order_quantity_floor_witness :
  validate_order empty_cart initial_state
  = Returned (false, "Order quantity below minimum threshold") initial_state.
Proof.
  apply (validate_order_quantity_floor empty_cart initial_state).
  - simpl. lia.
  - discriminate.
  - apply not_elem_of_empty.
Defined.

(** ** Inventory checker *)

Lemma check_inventory_unfold (order : Order) (s : State) :
  check_inventory order s =
  match PRODUCTS s !! product_id order with
  | Some product =>
      Returned
        (if stock product >=? quantity order
         then (true, "Stock available (" ++ pretty (stock product) ++ " units)")
         else (false, "Out of stock"))
        s
  | None => Raised (KeyError (product_id order)) s
  end.
Proof.
  unfold check_inventory, products_getitem. run_M.
  destruct (PRODUCTS s !! product_id order) as [product|]; simpl; [|reflexivity].
  now destruct (stock product >=? quantity order).
Qed.

(** C3 (as stated) fails: the test is [stock >= quantity], so a request for
    0 units of a product with no stock is reported as available. *)
Lemma check_inventory_zero_of_zero :
  PRODUCTS initial_state !! product_id free_charger_order = Some usb_c_charger
  ∧ stock usb_c_charger = 0
  ∧ check_inventory free_charger_order initial_state
    = Returned (true, "Stock available (0 units)") initial_state
  ∧ check_inventory free_charger_order initial_state
    ≠ Returned (false, "Out of stock") initial_state.
Proof. repeat split; try reflexivity; discriminate. Qed.

(** C3 (amended): for a catalog product with stock 0 and a requested
    quantity of at least 1, [check_inventory] returns
    [(False, "Out of stock")]; in general it returns [True] with the message
    reporting the current stock exactly when the stock is at least the
    requested quantity, and [(False, "Out of stock")] otherwise; the state
    is not changed. *)
Theorem check_inventory_spec (order : Order) (s : State) (product : Product) :
  PRODUCTS s !! product_id order = Some product →
  (stock product = 0 → 1 ≤ quantity order →
     check_inventory order s = Returned (false, "Out of stock") s)
  ∧ (quantity order ≤ stock product →
     check_inventory order s
     = Returned (true, "Stock available (" ++ pretty (stock product) ++ " units)") s)
  ∧ (stock product < quantity order →
     check_inventory order s = Returned (false, "Out of stock") s)
  ∧ ((∃ msg, check_inventory order s = Returned (true, msg) s)
     ↔ quantity order ≤ stock product).
Proof.
  intros Hp. rewrite check_inventory_unfold, Hp.
  destruct (Z.geb_spec (stock product) (quantity order)) as [Hge|Hlt].
  - repeat split; try (intros; lia); try reflexivity.
    intros _. eauto.
  - repeat split; try (intros; lia); try reflexivity.
    intros [msg [=]].
Qed.

Lemma check_inventory_spec_witness :
  check_inventory charger_order initial_state
  = Returned (false, "Out of stock") initial_state.
Proof.
  destruct (check_inventory_spec charger_order initial_state usb_c_charger)
    as [Hzero _].
  - reflexivity.
  - apply Hzero; [reflexivity | simpl; lia].
Defined.

(** C8: the catalog subscript in [check_inventory] is unguarded.  The call
    raises [KeyError] exactly when the order's product id is not a key of
    the catalog, and returns a result exactly when it is one; a missing
    product never comes back as a handled result. *)
Theorem check_inventory_lookup (order : Order) (s : State) :
  (check_inventory order s = Raised (KeyError (product_id order)) s
   ↔ PRODUCTS s !! product_id order = None)
  ∧ ((∃ r s', check_inventory order s = Returned r s')
     ↔ is_Some (PRODUCTS s !! product_id order))
  ∧ ((∃ e s', check_inventory order s = Raised e s')
     ↔ product_id order ∉ dom (PRODUCTS s)).
Proof.
  rewrite check_inventory_unfold, not_elem_of_dom.
  destruct (PRODUCTS s !! product_id order) as [product|] eqn:Hp.
  - repeat split; try discriminate; eauto.
    intros (e & s' & [=]).
  - repeat split; eauto.
    + intros (r & s' & [=]).
    + intros [x [=]].
Qed.

Example ghost_ex :
  check_inventory ghost_order initial_state = Raised (KeyError "P999") initial_state.
Proof. reflexivity. Qed.

(** ** Payment processor *)

Lemma process_payment_approves (amount : Z) :
  (process_payment amount).1 = true ↔ amount ≤ MAX_ORDER_AMOUNT.
Proof.
  unfold process_payment.
  destruct (Z.leb_spec amount MAX_ORDER_AMOUNT); simpl; split;
    try discriminate; try lia; auto.
Qed.

(** ** Fulfillment handler *)

Lemma fulfill_order_unfold (order : Order) (s : State) :
  fulfill_order order s =
  match PRODUCTS s !! product_id order with
  | Some product =>
      Returned "Order packed successfully"
        {| PRODUCTS := <[product_id order := take_stock (quantity order) product]>
                         (PRODUCTS s);
           PROCESSED_ORDERS := PROCESSED_ORDERS s;
           page := page s |}
  | None => Raised (KeyError (product_id order)) s
  end.
Proof.
  unfold fulfill_order, products_getitem. run_M.
  now destruct (PRODUCTS s !! product_id order).
Qed.

(** C7 (as stated) fails on "for every order ... no failure path": the
    catalog subscript raises [KeyError] when the product id is unknown, and
    then nothing is decremented and no message is returned. *)
Lemma fulfill_order_unknown_product :
  PRODUCTS initial_state !! product_id ghost_order = None
  ∧ fulfill_order ghost_order initial_state
    = Raised (KeyError "P999") initial_state
  ∧ fulfill_order ghost_order initial_state
    ≠ Returned "Order packed successfully"
        (final_state (fulfill_order ghost_order initial_state)).
Proof. repeat split; try reflexivity; discriminate. Qed.

(** C7 (amended): for every order whose product id is a key of the catalog,
    [fulfill_order] returns the fixed message "Order packed successfully"
    and leaves that product's stock at old stock − quantity, with no check
    of the stock; a second call for the same order succeeds again and
    leaves the stock at old stock − 2 × quantity. *)
Theorem fulfill_order_decrements (order : Order) (s : State) (product : Product) :
  PRODUCTS s !! product_id order = Some product →
  ∃ s1 s2 : State,
    fulfill_order order s = Returned "Order packed successfully" s1
    ∧ stock <$> (PRODUCTS s1 !! product_id order)
      = Some (stock product - quantity order)
    ∧ fulfill_order order s1 = Returned "Order packed successfully" s2
    ∧ stock <$> (PRODUCTS s2 !! product_id order)
      = Some (stock product - quantity order - quantity order).
Proof.
  intros Hp. eexists. eexists.
  split; [rewrite fulfill_order_unfold, Hp; reflexivity|].
  split; [simpl; now rewrite lookup_insert_eq|].
  split; [rewrite fulfill_order_unfold; simpl;
          rewrite lookup_insert_eq; reflexivity|].
  simpl. now rewrite lookup_insert_eq.
Qed.

Lemma fulfill_order_decrements_witness :
  ∃ s1 s2 : State,
    fulfill_order mouse_order initial_state
    = Returned "Order packed successfully" s1
    ∧ stock <$> (PRODUCTS s1 !! "P001") = Some 13
    ∧ fulfill_order mouse_order s1 = Returned "Order packed successfully" s2
    ∧ stock <$> (PRODUCTS s2 !! "P001") = Some 11.
Proof.
  apply (fulfill_order_decrements mouse_order initial_state wireless_mouse).
  reflexivity.
Defined.

(** C10: [fulfill_order] touches nothing but the stock of the product the
    order names.  The processed orders and the page are unchanged, the
    catalog keeps its keys, every other product is the same entry as
    before, and the matched product keeps its name, price, image and
    description.  (When the product id is unknown the call raises and the
    whole state is unchanged.) *)
Theorem fulfill_order_frame (order : Order) (s : State) :
  PROCESSED_ORDERS (final_state (fulfill_order order s)) = PROCESSED_ORDERS s
  ∧ page (final_state (fulfill_order order s)) = page s
  ∧ dom (PRODUCTS (final_state (fulfill_order order s))) = dom (PRODUCTS s)
  ∧ (∀ pid : string, pid ≠ product_id order →
       PRODUCTS (final_state (fulfill_order order s)) !! pid = PRODUCTS s !! pid)
  ∧ name <$> (PRODUCTS (final_state (fulfill_order order s)) !! product_id order)
    = name <$> (PRODUCTS s !! product_id order)
  ∧ price <$> (PRODUCTS (final_state (fulfill_order order s)) !! product_id order)
    = price <$> (PRODUCTS s !! product_id order)
  ∧ image <$> (PRODUCTS (final_state (fulfill_order order s)) !! product_id order)
    = image <$> (PRODUCTS s !! product_id order)
  ∧ description <$> (PRODUCTS (final_state (fulfill_order order s)) !! product_id order)
    = description <$> (PRODUCTS s !! product_id order).
Proof.
  rewrite fulfill_order_unfold.
  destruct (PRODUCTS s !! product_id order) as [product|] eqn:Hp; simpl.
  - rewrite lookup_insert_eq. repeat split.
    + apply dom_insert_lookup_L. eauto.
    + intros pid Hne. now rewrite lookup_insert_ne.
  - rewrite Hp. repeat split; auto.
Qed.

(** ** Shipment initiator *)

Section Strings.
Variable P : ascii → bool.

Lemma all_chars_substring (n : nat) (s : string) :
  all_chars P s = true → all_chars P (substring 0 n s) = true.
Proof.
  revert n. induction s as [|c r IH]; intros [|n] H; simpl in *; auto.
  apply andb_true_iff in H as [Hc Hr].
  rewrite Hc. simpl. now apply IH.
Qed.

Lemma all_chars_upper (Q : ascii → bool) (s : string) :
  (∀ c, P c = true → Q (char_upper c) = true) →
  all_chars P s = true → all_chars Q (str_upper s) = true.
Proof.
  intros HPQ. induction s as [|c r IH]; simpl; auto.
  intros H. apply andb_true_iff in H as [Hc Hr].
  rewrite (HPQ _ Hc). simpl. now apply IH.
Qed.
End Strings.

Lemma length_substring_prefix (n : nat) (s : string) :
  (n ≤ String.length s)%nat → String.length (substring 0 n s) = n.
Proof.
  revert n. induction s as [|c r IH]; intros [|n] H; simpl in *; auto; try lia.
  f_equal. apply IH. lia.
Qed.

Lemma length_str_upper (s : string) :
  String.length (str_upper s) = String.length s.
Proof. induction s; simpl; congruence. Qed.

Lemma length_hex_digits (n : nat) (u : Z) : String.length (hex_digits n u) = n.
Proof. induction n; simpl; congruence. Qed.

(** A nibble cut out with [& 15] is one of the sixteen digit values. *)
Lemma nibble_range (x : Z) : 0 ≤ Z.land x 15 < 16.
Proof.
  change 15 with (Z.ones 4). rewrite Z.land_ones by lia.
  apply Z.mod_pos_bound. reflexivity.
Qed.

Lemma hex_digit_lower (d : Z) : 0 ≤ d < 16 → is_lower_hex (hex_digit d) = true.
Proof.
  intros Hd.
  assert (d = 0 ∨ d = 1 ∨ d = 2 ∨ d = 3 ∨ d = 4 ∨ d = 5 ∨ d = 6 ∨ d = 7
          ∨ d = 8 ∨ d = 9 ∨ d = 10 ∨ d = 11 ∨ d = 12 ∨ d = 13 ∨ d = 14
          ∨ d = 15) as Hcases by lia.
  repeat (destruct Hcases as [->|Hcases]; [reflexivity|]).
  now subst.
Qed.

Lemma hex_digits_lower (n : nat) (u : Z) :
  all_chars is_lower_hex (hex_digits n u) = true.
Proof.
  induction n as [|n IH]; simpl; [reflexivity|].
  rewrite hex_digit_lower by apply nibble_range. exact IH.
Qed.

Lemma char_upper_hex (c : ascii) :
  is_lower_hex c = true → is_upper_alnum (char_upper c) = true.
Proof.
  destruct c as [[] [] [] [] [] [] [] []]; intros H;
    solve [reflexivity | discriminate H].
Qed.

(** C9: whatever the random draw, the tracking id is the literal ["TRK-"]
    followed by exactly 8 characters, each of them a digit or an uppercase
    letter. *)
Theorem initiate_shipment_format (rnd : Z) :
  ∃ code : string,
    initiate_shipment rnd = "TRK-" ++ code
    ∧ String.length code = 8%nat
    ∧ all_chars is_upper_alnum code = true.
Proof.
  exists (str_upper (str_prefix 8 (uuid_hex (uuid4 rnd)))).
  split; [reflexivity|]. unfold str_prefix, uuid_hex. split.
  - rewrite length_str_upper, length_substring_prefix; [reflexivity|].
    rewrite length_hex_digits. lia.
  - apply (all_chars_upper is_lower_hex); [apply char_upper_hex|].
    apply all_chars_substring, hex_digits_lower.
Qed.

(** ** Order processing flow *)

(** A rejected order: the reason is shown and the script stops; neither
    the catalog nor the processed orders change. *)
Lemma submit_order_rejected (order : Order) (rnd : Z) (s : State) (msg : string) :
  validate_order order s = Returned (false, msg) s →
  submit_order order rnd s =
  Raised StopException
    {| PRODUCTS := PRODUCTS s;
       PROCESSED_ORDERS := PROCESSED_ORDERS s;
       page := page s ++ [st_error msg] |}.
Proof.
  intros Hv. unfold submit_order, mbind, M_bind. rewrite Hv. reflexivity.
Qed.

(** An accepted order: its id is recorded, then the inventory check decides
    between an unknown product, a shortage and the full run.  The payment
    step has no outcome of its own. *)
Lemma submit_order_accepted (order : Order) (rnd : Z) (s : State) (msg : string) :
  validate_order order s = Returned (true, msg) s →
  submit_order order rnd s =
  match PRODUCTS s !! product_id order with
  | None =>
      Raised (KeyError (product_id order))
        {| PRODUCTS := PRODUCTS s;
           PROCESSED_ORDERS := {[order_id order]} ∪ PROCESSED_ORDERS s;
           page := page s ++ [st_success msg] |}
  | Some product =>
      if stock product >=? quantity order
      then
        Returned tt
          {| PRODUCTS := <[product_id order := take_stock (quantity order) product]>
                           (PRODUCTS s);
             PROCESSED_ORDERS := {[order_id order]} ∪ PROCESSED_ORDERS s;
             page := page s ++
               [st_success msg;
                st_success ("Stock available (" ++ pretty (stock product) ++ " units)");
                st_success "Payment successful";
                st_success "Order packed successfully";
                st_info ("📦 Shipment Initiated | Tracking ID: "
                         ++ initiate_shipment rnd);
                st_success "Order delivered successfully"] |}
      else
        Raised StopException
          {| PRODUCTS := PRODUCTS s;
             PROCESSED_ORDERS := {[order_id order]} ∪ PROCESSED_ORDERS s;
             page := page s ++ [st_success msg; st_error "Out of stock"] |}
  end.
Proof.
  intros Hv.
  destruct (validate_order_accepts _ _ _ _ Hv) as (_ & _ & _ & Hamt & _ & _).
  unfold submit_order, mbind, M_bind. rewrite Hv.
  cbn [negb]. unfold mret, M_ret, processed_add, render. cbn [PRODUCTS PROCESSED_ORDERS page].
  rewrite check_inventory_unfold. cbn [PRODUCTS PROCESSED_ORDERS page].
  destruct (PRODUCTS s !! product_id order) as [product|] eqn:Hp; [|reflexivity].
  destruct (stock product >=? quantity order); cbn [negb].
  - unfold process_payment.
    destruct (Z.leb_spec (total_amount order) MAX_ORDER_AMOUNT) as [_|Hgt]; [|lia].
    cbn [negb]. rewrite fulfill_order_unfold. cbn [PRODUCTS PROCESSED_ORDERS page].
    rewrite Hp. cbn [PRODUCTS PROCESSED_ORDERS page].
    rewrite <- !app_assoc. reflexivity.
  - unfold st_stop, raise. cbn [PRODUCTS PROCESSED_ORDERS page].
    rewrite <- !app_assoc. reflexivity.
Qed.

Lemma validate_order_returns (order : Order) (s : State) :
  ∃ (valid : bool) (msg : string), validate_order order s = Returned (valid, msg) s.
Proof.
  rewrite validate_order_unfold.
  match goal with |- ∃ _ _, Returned ?r _ = _ => destruct r as [valid msg] end.
  eauto.
Qed.

(** The reasons a rejection can carry. *)
Lemma validate_order_reasons (order : Order) (s s' : State) (msg : string) :
  validate_order order s = Returned (false, msg) s' →
  msg ∈ ["Invalid Order ID"; "Duplicate order detected";
         "Order quantity below minimum threshold";
         "Order amount exceeds risk threshold";
         "Delivery address not serviceable"].
Proof.
  rewrite validate_order_unfold.
  repeat case_match; intros [= <- _]; set_solver.
Qed.

(** What one submission can do to the two globals: the processed orders
    either stay or gain the (non-empty, new) id of an accepted order; the
    catalog either stays or has the stock of an in-stock product reduced
    by the ordered quantity. *)
Lemma submit_order_processed (order : Order) (rnd : Z) (s : State) :
  PROCESSED_ORDERS (final_state (submit_order order rnd s)) = PROCESSED_ORDERS s
  ∨ (order_id order ≠ ""
     ∧ PROCESSED_ORDERS (final_state (submit_order order rnd s))
       = {[order_id order]} ∪ PROCESSED_ORDERS s).
Proof.
  destruct (validate_order_returns order s) as ([|] & msg & Hv).
  - right. split; [eapply validate_order_accepts; eauto|].
    rewrite (submit_order_accepted _ _ _ _ Hv).
    repeat case_match; reflexivity.
  - left. now rewrite (submit_order_rejected _ _ _ _ Hv).
Qed.

Lemma submit_order_products (order : Order) (rnd : Z) (s : State) :
  PRODUCTS (final_state (submit_order order rnd s)) = PRODUCTS s
  ∨ ∃ product : Product,
      PRODUCTS s !! product_id order = Some product
      ∧ 1 ≤ quantity order ≤ stock product
      ∧ PRODUCTS (final_state (submit_order order rnd s))
        = <[product_id order := take_stock (quantity order) product]> (PRODUCTS s).
Proof.
  destruct (validate_order_returns order s) as ([|] & msg & Hv).
  - destruct (validate_order_accepts _ _ _ _ Hv) as (_ & _ & Hq & _).
    unfold MIN_ORDER_QUANTITY in Hq.
    rewrite (submit_order_accepted _ _ _ _ Hv).
    destruct (PRODUCTS s !! product_id order) as [product|]; [|now left].
    destruct (Z.geb_spec (stock product) (quantity order)); [|now left].
    right. exists product. repeat split; auto; lia.
  - left. now rewrite (submit_order_rejected _ _ _ _ Hv).
Qed.

Lemma step_stock_nonneg (s s' : State) :
  step s s' → stock_nonneg (PRODUCTS s) → stock_nonneg (PRODUCTS s').
Proof.
  intros (order & rnd & ->) Hs.
  destruct (submit_order_products order rnd s)
    as [->|(product & Hp & Hq & ->)]; [exact Hs|].
  intros pid p. rewrite lookup_insert.
  case_decide as Hpid.
  - intros [= <-]. simpl. lia.
  - apply Hs.
Qed.

Lemma step_processed (s s' : State) :
  step s s' →
  PROCESSED_ORDERS s ⊆ PROCESSED_ORDERS s'
  ∧ ("" ∉ PROCESSED_ORDERS s → "" ∉ PROCESSED_ORDERS s').
Proof.
  intros (order & rnd & ->).
  destruct (submit_order_processed order rnd s) as [->|[Hid ->]].
  - split; [reflexivity|auto].
  - split; [apply union_subseteq_r|].
    intros Hne [Hin|Hin]%elem_of_union; [|contradiction].
    apply elem_of_singleton in Hin. congruence.
Qed.

Lemma initial_stock_nonneg : stock_nonneg initial_catalog.
Proof.
  intros pid p. unfold initial_catalog.
  rewrite !lookup_insert, lookup_empty.
  repeat case_decide; intros [= <-]; simpl; lia.
Qed.

Lemma rtc_step_processed (s s' : State) :
  rtc step s s' →
  PROCESSED_ORDERS s ⊆ PROCESSED_ORDERS s'
  ∧ ("" ∉ PROCESSED_ORDERS s → "" ∉ PROCESSED_ORDERS s').
Proof.
  induction 1 as [s|s s1 s2 Hstep _ [IHsub IHne]]; [split; auto|].
  destruct (step_processed _ _ Hstep) as [Hsub Hne].
  split; [etrans; eauto|auto].
Qed.

Lemma reachable_empty_id_unprocessed (s : State) :
  reachable s → "" ∉ PROCESSED_ORDERS s.
Proof.
  intros Hr. apply (rtc_step_processed _ _ Hr). simpl. apply not_elem_of_empty.
Qed.

(** The emptiness test comes before the membership test, so the duplicate
    answer for a processed id rests on the empty id never being recorded. *)
Example empty_id_checked_first :
  order_id anonymous_empty_cart ∈ PROCESSED_ORDERS forged_state
  ∧ validate_order anonymous_empty_cart forged_state
    = Returned (false, "Invalid Order ID") forged_state
  ∧ ¬ reachable forged_state.
Proof.
  assert (order_id anonymous_empty_cart ∈ PROCESSED_ORDERS forged_state) as Hin.
  { change ("" ∈ ({[""]} : gset string)). now apply elem_of_singleton. }
  split; [exact Hin|]. split; [reflexivity|].
  intros Hr. apply reachable_empty_id_unprocessed in Hr. exact (Hr Hin).
Qed.

Lemma reachable_after_mouse : reachable after_mouse.
Proof.
  eapply rtc_r; [apply rtc_refl|].
  exists mouse_order, 0x0123456789abcdef0123456789abcdef. reflexivity.
Qed.

(** C4: [process_payment] approves exactly the amounts up to 5000, the
    ceiling [validate_order] uses; so for an order that passed validation
    the payment is approved, and a submission never shows the payment
    failure: the boxes it adds to the page do not contain it. *)
Theorem process_payment_never_fails_after_validation :
  MAX_ORDER_AMOUNT = 5000
  ∧ (∀ amount : Z,
       (process_payment amount = (true, "Payment successful")
        ↔ amount ≤ MAX_ORDER_AMOUNT)
       ∧ (process_payment amount = (false, "Payment failed due to risk threshold")
          ↔ amount > MAX_ORDER_AMOUNT))
  ∧ (∀ (order : Order) (s s' : State) (msg : string),
       validate_order order s = Returned (true, msg) s' →
       process_payment (total_amount order) = (true, "Payment successful"))
  ∧ (∀ (order : Order) (rnd : Z) (s : State),
       ∃ boxes : list Status,
         page (final_state (submit_order order rnd s)) = (page s ++ boxes)%list
         ∧ st_error "Payment failed due to risk threshold" ∉ boxes).
Proof.
  split; [reflexivity|]. split; [|split].
  - intros amount. unfold process_payment.
    destruct (Z.leb_spec amount MAX_ORDER_AMOUNT); split; split;
      intros; try discriminate; try reflexivity; lia.
  - intros order s s' msg Hv.
    destruct (validate_order_accepts _ _ _ _ Hv) as (_ & _ & _ & Hamt & _).
    unfold process_payment.
    destruct (Z.leb_spec (total_amount order) MAX_ORDER_AMOUNT); [reflexivity|lia].
  - intros order rnd s.
    destruct (validate_order_returns order s) as ([|] & msg & Hv).
    + rewrite (submit_order_accepted _ _ _ _ Hv).
      destruct (PRODUCTS s !! product_id order) as [product|];
        [destruct (stock product >=? quantity order)|];
        simpl; eexists; (split; [reflexivity|]);
        rewrite ?not_elem_of_cons; repeat split;
        try discriminate; apply not_elem_of_nil.
    + rewrite (submit_order_rejected _ _ _ _ Hv). simpl.
      eexists; split; [reflexivity|].
      apply validate_order_reasons in Hv.
      rewrite not_elem_of_cons. split; [|apply not_elem_of_nil].
      intros [= <-]. revert Hv. rewrite !elem_of_cons, elem_of_nil.
      intros [H|[H|[H|[H|[H|[]]]]]]; discriminate H.
Qed.

(** C6: in every state reached by running submissions from the initial
    catalog, every product's stock is non-negative; a submission changes
    the catalog only by taking the ordered quantity from a product whose
    stock the inventory check found to be at least that quantity. *)
Theorem stock_never_negative (s : State) :
  reachable s →
  stock_nonneg (PRODUCTS s)
  ∧ (∀ (order : Order) (rnd : Z),
       PRODUCTS (final_state (submit_order order rnd s)) = PRODUCTS s
       ∨ ∃ product : Product,
           PRODUCTS s !! product_id order = Some product
           ∧ check_inventory order s
             = Returned (true, "Stock available (" ++ pretty (stock product)
                               ++ " units)") s
           ∧ quantity order ≤ stock product
           ∧ PRODUCTS (final_state (submit_order order rnd s))
             = <[product_id order := take_stock (quantity order) product]>
                 (PRODUCTS s)).
Proof.
  intros Hreach. split.
  - unfold reachable in Hreach.
    apply (rtc_ind_r (R:=step) (λ s0, stock_nonneg (PRODUCTS s0)) initial_state);
      [exact initial_stock_nonneg | | exact Hreach].
    intros s1 s2 _ Hstep IH. exact (step_stock_nonneg _ _ Hstep IH).
  - intros order rnd.
    destruct (submit_order_products order rnd s)
      as [Heq|(product & Hp & Hq & Heq)]; [now left|].
    right. exists product. repeat split; auto; [|lia].
    rewrite check_inventory_unfold, Hp.
    destruct (Z.geb_spec (stock product) (quantity order)); [reflexivity|lia].
Qed.

Lemma stock_never_negative_witness :
  stock_nonneg (PRODUCTS after_mouse)
  ∧ stock <$> (PRODUCTS after_mouse !! "P001") = Some 13.
Proof.
  split; [|reflexivity].
  apply (stock_never_negative after_mouse).
  eapply rtc_r; [apply rtc_refl|].
  exists mouse_order, 0x0123456789abcdef0123456789abcdef. reflexivity.
Defined.

(** * Further properties of the code *)

(** ** Order validator: the whole decision *)

Lemma zone_serviceable_iff (z : string) : zone_serviceable z = true ↔ z = "IN".
Proof.
  unfold zone_serviceable, SERVICEABLE_ZONES. simpl.
  rewrite orb_false_r. apply String.eqb_eq.
Qed.

Lemma default_zone_iff (z : option string) :
  default "IN" z = "IN" ↔ z = None ∨ z = Some "IN".
Proof.
  destruct z as [z|]; simpl; split; auto.
  - intros ->. now right.
  - intros [[=]|[= ->]]. reflexivity.
Qed.

(** Runs the five tests of [validate_order] in the goal against their
    specifications, leaving arithmetic and contradictions to close. *)
Ltac validate_tests order s :=
  rewrite validate_order_unfold;
  unfold MIN_ORDER_QUANTITY, MAX_ORDER_AMOUNT;
  destruct (String.eqb_spec (order_id order) "") as [Hid|Hid];
  [|destruct (decide (order_id order ∈ PROCESSED_ORDERS s)) as [Hin|Hin];
    [|destruct (Z.ltb_spec (quantity order) 1) as [Hq|Hq];
      [|destruct (Z.gtb_spec (total_amount order) 5000) as [Ha|Ha];
        [|destruct (zone_serviceable (default "IN" (delivery_zone order)))
            eqn:Hz; cbn [negb];
          [apply zone_serviceable_iff in Hz
          |apply not_true_iff_false in Hz;
           rewrite zone_serviceable_iff in Hz]]]]].

(** X1: [validate_order] accepts an order exactly when its id is non-empty
    and not among the processed orders, its quantity is at least 1, its
    amount is at most 5000 and its delivery zone is "IN" or absent. *)
Theorem validate_order_accepts_iff (order : Order) (s : State) :
  validate_order order s = Returned (true, "Order validated successfully") s
  ↔ order_id order ≠ ""
    ∧ (order_id order ∉ PROCESSED_ORDERS s)
    ∧ 1 ≤ quantity order
    ∧ total_amount order ≤ 5000
    ∧ (delivery_zone order = None ∨ delivery_zone order = Some "IN").
Proof.
  rewrite <- default_zone_iff.
  validate_tests order s; (split; [intros [=] | intros (? & ? & ? & ? & ?)]);
    try contradiction; try lia; repeat split; auto; lia.
Qed.

(** X2: each rejection reason is returned exactly when its own test is the
    first that fails, in the order empty id, processed id, quantity below
    1, amount above 5000, zone other than "IN". *)
Theorem validate_order_reason_iff (order : Order) (s : State) :
  (validate_order order s = Returned (false, "Invalid Order ID") s
   ↔ order_id order = "")
  ∧ (validate_order order s = Returned (false, "Duplicate order detected") s
     ↔ order_id order ≠ "" ∧ order_id order ∈ PROCESSED_ORDERS s)
  ∧ (validate_order order s
     = Returned (false, "Order quantity below minimum threshold") s
     ↔ order_id order ≠ "" ∧ (order_id order ∉ PROCESSED_ORDERS s)
       ∧ quantity order < 1)
  ∧ (validate_order order s
     = Returned (false, "Order amount exceeds risk threshold") s
     ↔ order_id order ≠ "" ∧ (order_id order ∉ PROCESSED_ORDERS s)
       ∧ 1 ≤ quantity order ∧ total_amount order > 5000)
  ∧ (validate_order order s
     = Returned (false, "Delivery address not serviceable") s
     ↔ order_id order ≠ "" ∧ (order_id order ∉ PROCESSED_ORDERS s)
       ∧ 1 ≤ quantity order ∧ total_amount order ≤ 5000
       ∧ default "IN" (delivery_zone order) ≠ "IN").
Proof.
  validate_tests order s; repeat split; intros;
    try discriminate; try reflexivity; auto; try lia;
    try solve [intuition (try contradiction; try lia)].
Qed.

(** X3: the verdict of [validate_order] depends on the state only through
    the processed orders and on the order only through its id, quantity,
    amount and zone: the catalog, the product id and the relation between
    amount, price and quantity are not looked at. *)
Theorem validate_order_ignores_catalog (order order' : Order) (s s' : State) :
  PROCESSED_ORDERS s = PROCESSED_ORDERS s' →
  order_id order = order_id order' →
  quantity order = quantity order' →
  total_amount order = total_amount order' →
  default "IN" (delivery_zone order) = default "IN" (delivery_zone order') →
  returned (validate_order order s) = returned (validate_order order' s')
  ∧ final_state (validate_order order s) = s
  ∧ final_state (validate_order order' s') = s'.
Proof.
  intros Hp Hid Hq Ha Hz. rewrite !validate_order_unfold.
  rewrite Hp, Hid, Hq, Ha, Hz. repeat split.
Qed.

Lemma validate_order_ignores_catalog_witness :
  returned (validate_order mouse_order initial_state)
  = returned (validate_order keyboard_order_elsewhere
                {| PRODUCTS := ∅; PROCESSED_ORDERS := ∅;
                   page := [st_info "x"] |}).
Proof.
  apply (validate_order_ignores_catalog mouse_order keyboard_order_elsewhere
           initial_state
           {| PRODUCTS := ∅; PROCESSED_ORDERS := ∅; page := [st_info "x"] |});
    reflexivity.
Defined.

(** ** Order processing flow: outcomes *)

Lemma validate_order_success_message (order : Order) (s s' : State) (msg : string) :
  validate_order order s = Returned (true, msg) s' →
  msg = "Order validated successfully" ∧ s' = s.
Proof.
  rewrite validate_order_unfold. repeat case_match; intros [= <- <-]; auto.
Qed.

Lemma validate_order_verdict (order : Order) (s : State) :
  accepted order s
  ∨ ∃ msg, validate_order order s = Returned (false, msg) s ∧ ¬ accepted order s.
Proof.
  destruct (validate_order_returns order s) as ([|] & msg & Hv).
  - left. unfold accepted.
    now destruct (validate_order_success_message _ _ _ _ Hv) as [<- _].
  - right. exists msg. split; [exact Hv|].
    unfold accepted. rewrite Hv. discriminate.
Qed.

(** X4: how a submission ends.  It runs to the end exactly when the order
    passes validation and the product is in the catalog with stock at
    least the quantity; it dies with [KeyError] exactly when the order
    passes validation and the product is unknown; it is stopped by
    [st.stop()] exactly when validation fails or the stock is short.  No
    other exception leaves the flow. *)
Theorem submit_order_outcome (order : Order) (rnd : Z) (s : State) :
  ((∃ s', submit_order order rnd s = Returned tt s')
   ↔ accepted order s
     ∧ ∃ product, PRODUCTS s !! product_id order = Some product
                  ∧ quantity order ≤ stock product)
  ∧ ((∃ s', submit_order order rnd s = Raised (KeyError (product_id order)) s')
     ↔ accepted order s ∧ PRODUCTS s !! product_id order = None)
  ∧ ((∃ s', submit_order order rnd s = Raised StopException s')
     ↔ ¬ accepted order s
       ∨ ∃ product, PRODUCTS s !! product_id order = Some product
                    ∧ stock product < quantity order)
  ∧ (∀ e s', submit_order order rnd s = Raised e s' →
       e = StopException ∨ e = KeyError (product_id order)).
Proof.
  destruct (validate_order_verdict order s) as [Hv|(msg & Hv & Hno)].
  - rewrite (submit_order_accepted _ _ _ _ Hv).
    destruct (PRODUCTS s !! product_id order) as [product|];
      [destruct (Z.geb_spec (stock product) (quantity order)) as [Hq|Hq]|];
      naive_solver lia.
  - rewrite (submit_order_rejected _ _ _ _ Hv). naive_solver.
Qed.

(** X5: the id of an order is recorded as soon as validation passes, with
    no removal afterwards.  When validation passes the processed orders
    gain the id even if the order then fails on an unknown product or on
    short stock, and in those two cases the catalog is as before; when
    validation fails, neither the processed orders nor the catalog
    change. *)
Theorem submit_order_records_id (order : Order) (rnd : Z) (s : State) :
  (accepted order s →
     PROCESSED_ORDERS (final_state (submit_order order rnd s))
     = {[order_id order]} ∪ PROCESSED_ORDERS s
     ∧ ((∀ s', submit_order order rnd s ≠ Returned tt s') →
        PRODUCTS (final_state (submit_order order rnd s)) = PRODUCTS s))
  ∧ (¬ accepted order s →
     PROCESSED_ORDERS (final_state (submit_order order rnd s)) = PROCESSED_ORDERS s
     ∧ PRODUCTS (final_state (submit_order order rnd s)) = PRODUCTS s).
Proof.
  destruct (validate_order_verdict order s) as [Hv|(msg & Hv & Hno)].
  - split; [intros _|intros Hn; contradiction].
    rewrite (submit_order_accepted _ _ _ _ Hv).
    destruct (PRODUCTS s !! product_id order) as [product|];
      [destruct (stock product >=? quantity order)|]; simpl; split; auto.
    intros Hnot. now destruct (Hnot _ eq_refl).
  - split; [intros Ha; contradiction|intros _].
    now rewrite (submit_order_rejected _ _ _ _ Hv).
Qed.

(** ** Order processing flow: what accumulates *)

Lemma sold_from_refl (p : Product) : sold_from p p.
Proof. unfold sold_from. repeat split; lia. Qed.

Lemma catalog_sold_from_refl (c : gmap string Product) : catalog_sold_from c c.
Proof.
  intros pid. destruct (c !! pid); constructor. apply sold_from_refl.
Qed.

Lemma catalog_sold_from_dom (c0 c : gmap string Product) :
  catalog_sold_from c0 c → dom c = dom c0.
Proof.
  intros H. apply set_eq. intros pid. rewrite !elem_of_dom.
  destruct (H pid); split; intros [? [=]]; eauto.
Qed.

Lemma step_sold_from (s s' : State) :
  step s s' → catalog_sold_from (PRODUCTS s) (PRODUCTS s').
Proof.
  intros (order & rnd & ->).
  destruct (submit_order_products order rnd s)
    as [->|(product & Hp & Hq & ->)]; [apply catalog_sold_from_refl|].
  intros pid. rewrite lookup_insert. case_decide as Hpid.
  - subst pid. rewrite Hp. constructor.
    unfold sold_from. simpl. repeat split; lia.
  - destruct (PRODUCTS s !! pid); constructor. apply sold_from_refl.
Qed.

(** X7: one submission only adds to the processed orders and only sells.
    Whatever the order and the state it starts in, the processed orders
    it ends with contain the ones it started with, the catalog has
    exactly the same product ids, every product keeps its name, price,
    image and description, and no stock is higher than before. *)
Theorem submission_only_sells (order : Order) (rnd : Z) (s : State) :
  PROCESSED_ORDERS s ⊆ PROCESSED_ORDERS (final_state (submit_order order rnd s))
  ∧ dom (PRODUCTS (final_state (submit_order order rnd s))) = dom (PRODUCTS s)
  ∧ catalog_sold_from (PRODUCTS s)
      (PRODUCTS (final_state (submit_order order rnd s))).
Proof.
  assert (step s (final_state (submit_order order rnd s))) as Hstep
    by now exists order, rnd.
  split; [apply (step_processed _ _ Hstep)|].
  split; [apply catalog_sold_from_dom|]; apply step_sold_from, Hstep.
Qed.

(** X8: what one submission shows.  It adds between one and six status
    boxes after what was on the page; an error box can only be the last
    box, and it is there exactly when the flow was stopped by [st.stop()];
    the flow ran to the end exactly when the last box is "Order delivered
    successfully". *)
Theorem submit_order_page (order : Order) (rnd : Z) (s : State) :
  ∃ boxes : list Status,
    page (final_state (submit_order order rnd s)) = (page s ++ boxes)%list
    ∧ (1 ≤ length boxes ≤ 6)%nat
    ∧ ((∃ s', submit_order order rnd s = Raised StopException s')
       ↔ ∃ msg, last boxes = Some (st_error msg))
    ∧ ((∃ s', submit_order order rnd s = Returned tt s')
       ↔ last boxes = Some (st_success "Order delivered successfully"))
    ∧ (∀ msg, st_error msg ∈ boxes → last boxes = Some (st_error msg)).
Proof.
  destruct (validate_order_verdict order s) as [Hv|(msg & Hv & Hno)].
  - rewrite (submit_order_accepted _ _ _ _ Hv).
    destruct (PRODUCTS s !! product_id order) as [product|];
      [destruct (stock product >=? quantity order)|];
      eexists; (split; [reflexivity|]); simpl;
      (split; [lia|]);
      (repeat split; try (intros msg'; rewrite ?elem_of_cons, elem_of_nil));
      naive_solver.
  - rewrite (submit_order_rejected _ _ _ _ Hv).
    eexists; (split; [reflexivity|]); simpl; (split; [lia|]).
    repeat split; try (intros msg'; rewrite ?elem_of_cons, elem_of_nil);
      naive_solver.
Qed.

(** ** Fulfillment handler: composition *)

(** The state [fulfill_order] ends in, whether or not the product exists. *)
Lemma fulfill_order_final (order : Order) (s : State) :
  final_state (fulfill_order order s) =
  {| PRODUCTS := alter (take_stock (quantity order)) (product_id order) (PRODUCTS s);
     PROCESSED_ORDERS := PROCESSED_ORDERS s;
     page := page s |}.
Proof.
  rewrite fulfill_order_unfold, alter_alt.
  destruct (PRODUCTS s !! product_id order); simpl; [reflexivity|].
  now destruct s.
Qed.

Lemma take_stock_take_stock (q1 q2 : Z) (p : Product) :
  take_stock q2 (take_stock q1 p) = take_stock (q1 + q2) p.
Proof. unfold take_stock. simpl. f_equal. lia. Qed.

(** X9: fulfilments commute.  Fulfilling two orders leaves the same state
    in either order, whether they name the same product, different
    products, or products the catalog does not have. *)
Theorem fulfill_order_commute (order1 order2 : Order) (s : State) :
  final_state (fulfill_order order2 (final_state (fulfill_order order1 s)))
  = final_state (fulfill_order order1 (final_state (fulfill_order order2 s))).
Proof.
  rewrite !fulfill_order_final. simpl. f_equal.
  rewrite alter_alter. case_decide as Hpid; [|reflexivity].
  rewrite Hpid, alter_alter_eq. apply alter_ext. intros p _. simpl.
  rewrite !take_stock_take_stock. f_equal. lia.
Qed.

(** X10: fulfilments on one product add up, with no floor and no sign
    check: two calls leave the state one call for the summed quantity
    would leave, so a call with the opposite quantity undoes a
    fulfilment. *)
Theorem fulfill_order_adds_up (order1 order2 : Order) (s : State) :
  product_id order2 = product_id order1 →
  (∀ both : Order,
     product_id both = product_id order1 →
     quantity both = quantity order1 + quantity order2 →
     final_state (fulfill_order order2 (final_state (fulfill_order order1 s)))
     = final_state (fulfill_order both s))
  ∧ (quantity order2 = - quantity order1 →
     final_state (fulfill_order order2 (final_state (fulfill_order order1 s))) = s).
Proof.
  intros Hpid. rewrite !fulfill_order_final. simpl.
  rewrite Hpid, alter_alter_eq. split.
  - intros both Hb Hq. rewrite fulfill_order_final, Hb, Hq. f_equal.
    apply alter_ext. intros p _. simpl. apply take_stock_take_stock.
  - intros Hq. destruct s as [c ps pg]. simpl. f_equal.
    apply alter_id. intros p _. simpl. rewrite take_stock_take_stock, Hq.
    destruct p. unfold take_stock. simpl. f_equal. lia.
Qed.

Lemma fulfill_order_adds_up_witness :
  final_state (fulfill_order restock_order
                 (final_state (fulfill_order mouse_order initial_state)))
  = initial_state.
Proof.
  apply (fulfill_order_adds_up mouse_order restock_order initial_state);
    reflexivity.
Defined.

(** ** Shipment initiator: which random bits reach the id *)

Lemma const_high_bit (c n : Z) : 0 ≤ c < 2 ^ 80 → 80 ≤ n → Z.testbit c n = false.
Proof.
  intros [Hc0 Hc] Hn.
  destruct (Z.eq_dec c 0) as [->|Hne]; [apply Z.bits_0|].
  apply Z.bits_above_log2; [lia|].
  assert (Z.log2 c < 80) by (apply Z.log2_lt_pow2; lia). lia.
Qed.

(** The version and variant bits that [uuid4] overwrites lie below bit 80. *)
Lemma uuid4_high_bits (rnd n : Z) :
  80 ≤ n → Z.testbit (uuid4 rnd) n = Z.testbit rnd n.
Proof.
  intros Hn. unfold uuid4.
  rewrite Z.lor_spec, Z.land_spec, Z.lor_spec, Z.land_spec.
  rewrite !Z.lnot_spec by lia.
  assert (∀ c, 0 ≤ c < 2 ^ 80 → Z.testbit c n = false) as Hc
    by (intros c Hc; now apply const_high_bit).
  rewrite (Hc (Z.shiftl 0xc000 48)) by (split; now vm_compute).
  rewrite (Hc (Z.shiftl 0x8000 48)) by (split; now vm_compute).
  rewrite (Hc (Z.shiftl 0xf000 64)) by (split; now vm_compute).
  rewrite (Hc (Z.shiftl 4 76)) by (split; now vm_compute).
  simpl. now rewrite !andb_true_r, !orb_false_r.
Qed.

Lemma uuid4_shiftr (rnd k : Z) :
  80 ≤ k → Z.shiftr (uuid4 rnd) k = Z.shiftr rnd k.
Proof.
  intros Hk. apply Z.bits_inj'. intros n Hn.
  rewrite !Z.shiftr_spec by exact Hn. apply uuid4_high_bits. lia.
Qed.

(** Cutting the first [n] of [n + m] digits is printing the number
    shifted down by [m] digits. *)
Lemma str_prefix_hex_digits (n m : nat) (u : Z) :
  str_prefix n (hex_digits (n + m) u) = hex_digits n (Z.shiftr u (4 * Z.of_nat m)).
Proof.
  unfold str_prefix. induction n as [|n IH]; simpl.
  - now destruct (hex_digits m u).
  - rewrite IH. f_equal. f_equal. f_equal.
    rewrite Z.shiftr_shiftr by lia. f_equal. lia.
Qed.

(** X11: the tracking id is the literal ["TRK-"] followed by the eight
    uppercase hexadecimal digits of bits 96 to 127 of the random draw:
    the version and variant bits that [uuid4] sets never reach it, and
    the low 96 bits of the draw are dropped. *)
Theorem initiate_shipment_top_bits (rnd : Z) :
  initiate_shipment rnd = "TRK-" ++ str_upper (hex_digits 8 (Z.shiftr rnd 96)).
Proof.
  unfold initiate_shipment, uuid_hex.
  rewrite (str_prefix_hex_digits 8 24).
  change (4 * Z.of_nat 24) with 96.
  now rewrite uuid4_shiftr by lia.
Qed.

Lemma const_high_bit_4 (j : Z) : 4 ≤ j → Z.testbit 15 j = false.
Proof.
  intros Hj. apply Z.bits_above_log2; [lia|]. change (Z.log2 15) with 3. lia.
Qed.

Lemma nibble_mod (x : Z) : Z.land x 15 = x mod 16.
Proof. change 15 with (Z.ones 4). now rewrite Z.land_ones by lia. Qed.

Lemma hex_char_value_digit (d : Z) :
  0 ≤ d < 16 → hex_char_value (char_upper (hex_digit d)) = d.
Proof.
  intros Hd.
  assert (d = 0 ∨ d = 1 ∨ d = 2 ∨ d = 3 ∨ d = 4 ∨ d = 5 ∨ d = 6 ∨ d = 7
          ∨ d = 8 ∨ d = 9 ∨ d = 10 ∨ d = 11 ∨ d = 12 ∨ d = 13 ∨ d = 14
          ∨ d = 15) as Hcases by lia.
  repeat (destruct Hcases as [->|Hcases]; [reflexivity|]).
  now subst.
Qed.

(** Reading the printed digits back gives the number modulo [16 ^ n]. *)
Lemma hex_value_hex_digits (n : nat) (u acc : Z) :
  hex_value_acc acc (str_upper (hex_digits n u))
  = acc * 16 ^ Z.of_nat n + u mod 16 ^ Z.of_nat n.
Proof.
  revert acc. induction n as [|n IH]; intros acc.
  - simpl. rewrite Z.mod_1_r. lia.
  - cbn [hex_digits str_upper hex_value_acc]. rewrite IH.
    rewrite hex_char_value_digit by apply nibble_range.
    rewrite nibble_mod, Z.shiftr_div_pow2 by lia.
    replace (2 ^ (4 * Z.of_nat n)) with (16 ^ Z.of_nat n)
      by (rewrite Z.pow_mul_r by lia; reflexivity).
    rewrite Nat2Z.inj_succ, Z.pow_succ_r by lia.
    assert (0 < 16 ^ Z.of_nat n) as Hpos by (apply Z.pow_pos_nonneg; lia).
    rewrite (Z.mul_comm 16 (16 ^ Z.of_nat n)).
    rewrite (Z.rem_mul_r u (16 ^ Z.of_nat n) 16) by lia.
    lia.
Qed.

(** The low [n] digits only look at the low [4 n] bits. *)
Lemma hex_digits_low (n m : nat) (u : Z) :
  (n ≤ m)%nat → hex_digits n (u mod 2 ^ (4 * Z.of_nat m)) = hex_digits n u.
Proof.
  induction n as [|n IH]; intros Hnm; simpl; [reflexivity|].
  rewrite IH by lia. f_equal. f_equal.
  apply Z.bits_inj'. intros j Hj.
  rewrite !Z.land_spec, !Z.shiftr_spec by exact Hj.
  destruct (Z.testbit 15 j) eqn:H15; [|now rewrite !andb_false_r].
  rewrite !andb_true_r. apply Z.mod_pow2_bits_low.
  assert (j < 4) as Hlt; [|lia].
  destruct (Z.lt_ge_cases j 4) as [Hlt|Hge]; [exact Hlt|].
  rewrite (const_high_bit_4 j) in H15 by exact Hge. discriminate.
Qed.

Lemma append_TRK_inj (x y : string) : "TRK-" ++ x = "TRK-" ++ y → x = y.
Proof. now intros [=]. Qed.

(** X12: two shipments get the same tracking id exactly when their random
    draws agree on bits 96 to 127; the id carries 32 random bits and
    nothing else. *)
Theorem initiate_shipment_collision (rnd1 rnd2 : Z) :
  initiate_shipment rnd1 = initiate_shipment rnd2
  ↔ Z.shiftr rnd1 96 mod 2 ^ 32 = Z.shiftr rnd2 96 mod 2 ^ 32.
Proof.
  rewrite !initiate_shipment_top_bits. split.
  - intros H. apply append_TRK_inj in H.
    apply (f_equal (hex_value_acc 0)) in H.
    rewrite !hex_value_hex_digits in H.
    change (16 ^ Z.of_nat 8) with (2 ^ 32) in H. lia.
  - intros H. f_equal. f_equal.
    rewrite <- (hex_digits_low 8 8 (Z.shiftr rnd1 96)) by lia.
    rewrite <- (hex_digits_low 8 8 (Z.shiftr rnd2 96)) by lia.
    change (2 ^ (4 * Z.of_nat 8)) with (2 ^ 32). now rewrite H.
Qed.

(** ** Order placement *)

Lemma new_order_id_nonempty (rnd : Z) : new_order_id rnd ≠ "".
Proof.
  unfold new_order_id.
  generalize (str_upper (str_prefix 6 (uuid_hex (uuid4 rnd)))).
  intros code. discriminate.
Qed.

(** X13: whatever the random draw, the order id the page generates is the
    literal ["ORD-"] followed by exactly 6 characters, each a digit or an
    uppercase letter: the six uppercase hexadecimal digits of bits 104 to
    127 of the draw.  In particular it is never empty. *)
Theorem new_order_id_format (rnd : Z) :
  new_order_id rnd = "ORD-" ++ str_upper (hex_digits 6 (Z.shiftr rnd 104))
  ∧ String.length (str_upper (hex_digits 6 (Z.shiftr rnd 104))) = 6%nat
  ∧ all_chars is_upper_alnum (str_upper (hex_digits 6 (Z.shiftr rnd 104))) = true
  ∧ new_order_id rnd ≠ "".
Proof.
  split; [|split; [|split]].
  - unfold new_order_id, uuid_hex.
    rewrite (str_prefix_hex_digits 6 26).
    change (4 * Z.of_nat 26) with 104.
    now rewrite uuid4_shiftr by lia.
  - now rewrite length_str_upper, length_hex_digits.
  - apply (all_chars_upper is_lower_hex); [apply char_upper_hex|].
    apply hex_digits_lower.
  - apply new_order_id_nonempty.
Qed.

Lemma build_order_unfold (id_rnd : Z) (pid : string) (qty : Z) (s : State) :
  build_order id_rnd pid qty s =
  match PRODUCTS s !! pid with
  | Some product =>
      Returned {| order_id := new_order_id id_rnd;
                  product_id := pid;
                  quantity := qty;
                  total_amount := price product * qty;
                  delivery_zone := Some "IN" |}
        (show_total (price product * qty) s)
  | None => Raised (KeyError pid) s
  end.
Proof.
  unfold build_order, products_getitem. run_M.
  now destruct (PRODUCTS s !! pid).
Qed.

Lemma accepted_intro (order : Order) (s : State) :
  order_id order ≠ "" →
  order_id order ∉ PROCESSED_ORDERS s →
  1 ≤ quantity order →
  total_amount order ≤ 5000 →
  default "IN" (delivery_zone order) = "IN" →
  accepted order s.
Proof.
  intros ? ? ? ? Hzone. unfold accepted.
  validate_tests order s; try contradiction; try lia; congruence.
Qed.

(** X14: validation of an order built by the page.  For a product of the
    catalog and a quantity of at least 1, the placement shows the amount
    box, changes nothing else, and builds the order with the generated
    id, the amount price × quantity and the zone "IN".  In the state the
    placement leaves, that order is accepted exactly when its id is new
    and price × quantity is at most 5000, rejected as duplicate exactly
    when its id is already processed, and rejected for its amount exactly
    when the id is new and price × quantity exceeds 5000.  The other
    three reasons cannot occur. *)
Theorem placed_order_validation
    (id_rnd : Z) (pid : string) (qty : Z) (s : State) (product : Product) :
  PRODUCTS s !! pid = Some product →
  1 ≤ qty →
  ∃ (order : Order) (s1 : State),
    build_order id_rnd pid qty s = Returned order s1
    ∧ s1 = show_total (price product * qty) s
    ∧ order = mkOrder (new_order_id id_rnd) pid qty (price product * qty) (Some "IN")
    ∧ (accepted order s1
       ↔ (new_order_id id_rnd ∉ PROCESSED_ORDERS s) ∧ price product * qty ≤ 5000)
    ∧ (validate_order order s1 = Returned (false, "Duplicate order detected") s1
       ↔ new_order_id id_rnd ∈ PROCESSED_ORDERS s)
    ∧ (validate_order order s1
       = Returned (false, "Order amount exceeds risk threshold") s1
       ↔ (new_order_id id_rnd ∉ PROCESSED_ORDERS s) ∧ price product * qty > 5000)
    ∧ validate_order order s1 ≠ Returned (false, "Invalid Order ID") s1
    ∧ validate_order order s1
      ≠ Returned (false, "Order quantity below minimum threshold") s1
    ∧ validate_order order s1
      ≠ Returned (false, "Delivery address not serviceable") s1.
Proof.
  intros Hprod Hqty. eexists. eexists.
  split; [rewrite build_order_unfold, Hprod; reflexivity|].
  split; [reflexivity|]. split; [reflexivity|].
  pose proof (new_order_id_nonempty id_rnd) as Hne.
  unfold accepted.
  change (PROCESSED_ORDERS s)
    with (PROCESSED_ORDERS (show_total (price product * qty) s)).
  generalize (show_total (price product * qty) s). intros s1.
  match goal with |- context [validate_order ?o s1] => set (order := o) end.
  validate_tests order s1; subst order; simpl in *; naive_solver lia.
Qed.

Lemma placed_order_validation_witness :
  ∃ (order : Order) (s1 : State),
    build_order 0xa1b2c3ff0000000000000000000000 "P001" 2 initial_state
    = Returned order s1
    ∧ s1 = show_total (price wireless_mouse * 2) initial_state
    ∧ order = mkOrder (new_order_id 0xa1b2c3ff0000000000000000000000) "P001" 2
                (price wireless_mouse * 2) (Some "IN")
    ∧ (accepted order s1
       ↔ (new_order_id 0xa1b2c3ff0000000000000000000000
          ∉ PROCESSED_ORDERS initial_state)
         ∧ price wireless_mouse * 2 ≤ 5000)
    ∧ (validate_order order s1
       = Returned (false, "Duplicate order detected") s1
       ↔ new_order_id 0xa1b2c3ff0000000000000000000000
         ∈ PROCESSED_ORDERS initial_state)
    ∧ (validate_order order s1
       = Returned (false, "Order amount exceeds risk threshold") s1
       ↔ (new_order_id 0xa1b2c3ff0000000000000000000000
          ∉ PROCESSED_ORDERS initial_state)
         ∧ price wireless_mouse * 2 > 5000)
    ∧ validate_order order s1 ≠ Returned (false, "Invalid Order ID") s1
    ∧ validate_order order s1
      ≠ Returned (false, "Order quantity below minimum threshold") s1
    ∧ validate_order order s1
      ≠ Returned (false, "Delivery address not serviceable") s1.
Proof.
  apply (placed_order_validation 0xa1b2c3ff0000000000000000000000 "P001" 2
           initial_state wireless_mouse); [reflexivity | lia].
Defined.

Lemma place_order_unfold
    (id_rnd : Z) (pid : string) (qty ship_rnd : Z) (s : State) (product : Product) :
  PRODUCTS s !! pid = Some product →
  place_order id_rnd pid qty ship_rnd s =
  submit_order (mkOrder (new_order_id id_rnd) pid qty (price product * qty) (Some "IN"))
    ship_rnd (show_total (price product * qty) s).
Proof.
  intros Hp. unfold place_order, mbind, M_bind.
  now rewrite build_order_unfold, Hp.
Qed.

(** X15: a run of the page with the button pressed, for a product of the
    catalog and a quantity of at least 1.  It runs to the end exactly when
    the generated id is new, price × quantity is at most 5000 and the
    stock is at least the quantity, and then the product's stock is down
    by the quantity and the id is recorded; if it does not run to the end
    it was stopped by [st.stop()]: the unguarded catalog lookups cannot
    raise [KeyError]. *)
Theorem place_order_outcome
    (id_rnd : Z) (pid : string) (qty ship_rnd : Z) (s : State) (product : Product) :
  PRODUCTS s !! pid = Some product →
  1 ≤ qty →
  ((∃ s', place_order id_rnd pid qty ship_rnd s = Returned tt s')
   ↔ (new_order_id id_rnd ∉ PROCESSED_ORDERS s)
     ∧ price product * qty ≤ 5000
     ∧ qty ≤ stock product)
  ∧ (∀ s', place_order id_rnd pid qty ship_rnd s = Returned tt s' →
       PRODUCTS s' = <[pid := take_stock qty product]> (PRODUCTS s)
       ∧ PROCESSED_ORDERS s' = {[new_order_id id_rnd]} ∪ PROCESSED_ORDERS s)
  ∧ (∀ e s', place_order id_rnd pid qty ship_rnd s = Raised e s' →
       e = StopException).
Proof.
  intros Hp Hq. rewrite (place_order_unfold _ _ _ _ _ _ Hp).
  set (order := mkOrder (new_order_id id_rnd) pid qty (price product * qty) (Some "IN")).
  set (s1 := show_total (price product * qty) s).
  destruct (validate_order_verdict order s1) as [Hv|(msg & Hv & Hno)].
  - destruct (validate_order_accepts _ _ _ _ Hv) as (_ & Hnew & _ & Hamt & _).
    unfold MAX_ORDER_AMOUNT in Hamt. simpl in Hnew, Hamt.
    rewrite (submit_order_accepted _ _ _ _ Hv). simpl. rewrite Hp.
    destruct (Z.geb_spec (stock product) qty); naive_solver lia.
  - rewrite (submit_order_rejected _ _ _ _ Hv).
    assert (¬ ((new_order_id id_rnd ∉ PROCESSED_ORDERS s)
               ∧ price product * qty ≤ 5000)) as Hnot.
    { intros [Hnew Hamt]. apply Hno.
      apply accepted_intro; simpl; auto using new_order_id_nonempty. }
    naive_solver.
Qed.

Lemma place_order_outcome_witness :
  ∃ s', place_order 0xa1b2c3ff0000000000000000000000 "P001" 2 7 initial_state
        = Returned tt s'.
Proof.
  apply (place_order_outcome 0xa1b2c3ff0000000000000000000000 "P001" 2 7
           initial_state wireless_mouse); [reflexivity | lia |].
  split; [apply not_elem_of_empty|]. simpl. lia.
Defined.

(** ** Stock display *)

Lemma reachable_stock_nonneg (s : State) :
  reachable s → stock_nonneg (PRODUCTS s).
Proof.
  intros Hreach.
  apply (rtc_ind_r (R:=step) (λ s0, stock_nonneg (PRODUCTS s0)) initial_state);
    [exact initial_stock_nonneg | | exact Hreach].
  intros s1 s2 _ Hstep IH. exact (step_stock_nonneg _ _ Hstep IH).
Qed.

(** X16: the two out-of-stock displays and the inventory check agree in
    every state the program reaches.  For a product of the catalog, the
    catalog card shows "Out of Stock" (test [stock > 0] failing) exactly
    when the details panel shows "Currently out of stock" (test
    [stock == 0]), and exactly then [check_inventory] turns away every
    order for it with a quantity of at least 1. *)
Theorem out_of_stock_displays_agree (s : State) (pid : string) (product : Product) :
  reachable s →
  PRODUCTS s !! pid = Some product →
  (catalog_stock_line product = "❌ Out of Stock"
   ↔ details_out_of_stock product = true)
  ∧ (details_out_of_stock product = true
     ↔ ∀ order : Order,
         product_id order = pid → 1 ≤ quantity order →
         check_inventory order s = Returned (false, "Out of stock") s).
Proof.
  intros Hreach Hp.
  pose proof (reachable_stock_nonneg s Hreach pid product Hp) as Hnn.
  unfold catalog_stock_line, details_out_of_stock. split.
  - destruct (Z.gtb_spec (stock product) 0) as [Hpos|Hle];
      destruct (Z.eqb_spec (stock product) 0) as [Hz|Hnz];
      split; intros H; try reflexivity; try discriminate H; lia.
  - rewrite Z.eqb_eq. split.
    + intros Hz order <- Hq. rewrite check_inventory_unfold, Hp, Hz.
      destruct (Z.geb_spec 0 (quantity order)); [lia|reflexivity].
    + intros Hall.
      specialize (Hall (mkOrder "" pid 1 0 None) eq_refl ltac:(simpl; lia)).
      rewrite check_inventory_unfold in Hall. simpl in Hall. rewrite Hp in Hall.
      destruct (Z.geb_spec (stock product) 1) as [Hge|Hlt];
        [discriminate Hall|lia].
Qed.

Lemma out_of_stock_displays_agree_witness :
  (catalog_stock_line usb_c_charger = "❌ Out of Stock"
   ↔ details_out_of_stock usb_c_charger = true)
  ∧ (details_out_of_stock usb_c_charger = true
     ↔ ∀ order : Order,
         product_id order = "P003" → 1 ≤ quantity order →
         check_inventory order after_mouse
         = Returned (false, "Out of stock") after_mouse).
Proof.
  apply (out_of_stock_displays_agree after_mouse "P003" usb_c_charger).
  - eapply rtc_r; [apply rtc_refl|].
    exists mouse_order, 0x0123456789abcdef0123456789abcdef. reflexivity.
  - reflexivity.
Defined.

(** Outside the reachable states the two displays part: with a negative
    stock the card says out of stock and the details panel does not. *)
Example oversold_displays_differ :
  catalog_stock_line oversold_mouse = "❌ Out of Stock"
  ∧ details_out_of_stock oversold_mouse = false.
Proof. split; reflexivity. Qed.

Example place_order_mouse_ex :
  stock <$> (PRODUCTS (final_state
               (place_order 0xa1b2c3ff0000000000000000000000 "P001" 2 7
                  initial_state)) !! "P001") = Some 13
  ∧ new_order_id 0xa1b2c3ff0000000000000000000000 = "ORD-00A1B2"
  ∧ place_order 5 "P999" 1 7 initial_state = Raised (KeyError "P999") initial_state.
Proof. repeat split; vm_compute; reflexivity. Qed.

(** ** A run of the script *)

Lemma show_details_frame (selected : option string) (s : State) :
  ∃ boxes : list Status,
    (boxes = [] ∨ boxes = [st_error "Currently out of stock"])
    ∧ final_state (show_details selected s)
      = {| PRODUCTS := PRODUCTS s;
           PROCESSED_ORDERS := PROCESSED_ORDERS s;
           page := page s ++ boxes |}.
Proof.
  assert (s = {| PRODUCTS := PRODUCTS s;
                 PROCESSED_ORDERS := PROCESSED_ORDERS s;
                 page := page s ++ [] |}) as Hsame
    by (rewrite app_nil_r; now destruct s).
  unfold show_details, products_getitem. run_M.
  destruct selected as [pid|]; [|exists []; auto].
  destruct (String.eqb pid ""); [exists []; auto|].
  destruct (PRODUCTS s !! pid) as [product|]; simpl; [|exists []; auto].
  destruct (details_out_of_stock product); simpl; [|exists []; auto].
  exists [st_error "Currently out of stock"]. auto.
Qed.

(** A flow that starts with no processed orders cannot answer
    "duplicate". *)
Lemma validate_order_fresh (order : Order) (s : State) (msg : string) :
  PROCESSED_ORDERS s = ∅ →
  validate_order order s = Returned (false, msg) s →
  msg ≠ "Duplicate order detected".
Proof.
  intros Hfresh. validate_tests order s; intros [= <-]; try discriminate.
  rewrite Hfresh in Hin. now apply not_elem_of_empty in Hin.
Qed.

Lemma submit_order_fresh (order : Order) (rnd : Z) (s : State) :
  PROCESSED_ORDERS s = ∅ →
  (∃ boxes : list Status,
     page (final_state (submit_order order rnd s)) = (page s ++ boxes)%list
     ∧ st_error "Duplicate order detected" ∉ boxes)
  ∧ PROCESSED_ORDERS (final_state (submit_order order rnd s)) ⊆ {[order_id order]}.
Proof.
  intros Hfresh.
  destruct (validate_order_verdict order s) as [Hv|(msg & Hv & Hno)].
  - rewrite (submit_order_accepted _ _ _ _ Hv).
    destruct (PRODUCTS s !! product_id order) as [product|];
      [destruct (stock product >=? quantity order)|];
      simpl; rewrite Hfresh, union_empty_r_L;
      (split; [eexists; split; [reflexivity|]|reflexivity]);
      rewrite ?not_elem_of_cons; repeat split;
      try discriminate; apply not_elem_of_nil.
  - rewrite (submit_order_rejected _ _ _ _ Hv). simpl. rewrite Hfresh.
    split; [|apply empty_subseteq].
    eexists; split; [reflexivity|].
    rewrite not_elem_of_cons. split; [|apply not_elem_of_nil].
    intros [= Hmsg]. symmetry in Hmsg.
    exact (validate_order_fresh _ _ _ Hfresh Hv Hmsg).
Qed.

Lemma no_duplicate_box_in_details (boxes : list Status) :
  boxes = [] ∨ boxes = [st_error "Currently out of stock"] →
  st_error "Duplicate order detected" ∉ boxes.
Proof.
  intros [->| ->]; [apply not_elem_of_nil|].
  rewrite not_elem_of_cons. split; [discriminate|apply not_elem_of_nil].
Qed.

(** The body of the script from globals with no processed orders. *)
Lemma script_body_fresh (w : Widgets) (s0 : State) :
  PROCESSED_ORDERS s0 = ∅ →
  (∃ boxes : list Status,
     page (final_state (script_body w s0)) = (page s0 ++ boxes)%list
     ∧ st_error "Duplicate order detected" ∉ boxes)
  ∧ PROCESSED_ORDERS (final_state (script_body w s0))
    ⊆ {[new_order_id (order_uuid w)]}
  ∧ (PRODUCTS (final_state (script_body w s0)) = PRODUCTS s0
     ∨ ∃ product : Product,
         PRODUCTS s0 !! selectbox_product w = Some product
         ∧ 1 ≤ number_input_quantity w ≤ stock product
         ∧ PRODUCTS (final_state (script_body w s0))
           = <[selectbox_product w
               := take_stock (number_input_quantity w) product]> (PRODUCTS s0)).
Proof.
  intros Hfresh. unfold script_body, mbind, M_bind, get_products.
  destruct (show_details_frame (selected_after_catalog (PRODUCTS s0) w) s0)
    as (b1 & Hb1 & Hf1).
  apply no_duplicate_box_in_details in Hb1.
  destruct (show_details _ s0) as [[] s1|e s1]; simpl in Hf1; subst s1.
  - rewrite build_order_unfold. cbn [PRODUCTS].
    destruct (PRODUCTS s0 !! selectbox_product w) as [product|] eqn:Hp.
    + set (order := mkOrder _ _ _ _ _). set (s2 := show_total _ _).
      assert (PROCESSED_ORDERS s2 = ∅) as Hfresh2 by exact Hfresh.
      assert (∃ boxes, page s2 = (page s0 ++ boxes)%list
                       ∧ st_error "Duplicate order detected" ∉ boxes) as Hpage2.
      { eexists. split; [simpl; rewrite <- app_assoc; reflexivity|].
        rewrite not_elem_of_app, not_elem_of_cons.
        repeat split; [exact Hb1|discriminate|apply not_elem_of_nil]. }
      destruct (clicked w).
      * split; [exact Hpage2|]. split; [|now left].
        simpl. rewrite Hfresh. apply empty_subseteq.
      * split; [exact Hpage2|]. split; [|now left].
        simpl. rewrite Hfresh. apply empty_subseteq.
      * destruct (submit_order_fresh order (shipment_uuid w) s2 Hfresh2)
          as [(b3 & Hb3 & Hno3) Hids].
        destruct Hpage2 as (b2 & Hb2 & Hno2).
        split; [|split; [exact Hids|]].
        -- exists (b2 ++ b3)%list. rewrite Hb3, Hb2, app_assoc.
           split; [reflexivity|]. rewrite not_elem_of_app. auto.
        -- destruct (submit_order_products order (shipment_uuid w) s2)
             as [Heq|(p & Hp' & Hq & Heq)]; [left; exact Heq|].
           change (PRODUCTS s0 !! selectbox_product w = Some p) in Hp'.
           assert (p = product) as -> by congruence.
           right. exists product.
           split; [reflexivity|split; [exact Hq|exact Heq]].
    + simpl. split; [eauto|]. split; [|now left].
      rewrite Hfresh. apply empty_subseteq.
  - simpl. split; [eauto|]. split; [|now left].
    rewrite Hfresh. apply empty_subseteq.
Qed.

(** C5 (the code against the claim): the second of two clicks on [Submit
    Order] with the same order id.  The first run accepts the order and
    records its id; the second run assigns [PROCESSED_ORDERS = set()]
    again before the flow, so the same id passes validation a second
    time, the flow runs to the end and the page shows "Order validated
    successfully" where the claim has "Duplicate order detected". *)
Theorem resubmitted_order_validated_again :
  new_order_id (order_uuid mouse_widgets) = "ORD-00A1B2"
  ∧ PROCESSED_ORDERS after_first_run = {["ORD-00A1B2"]}
  ∧ validate_order
      (mkOrder "ORD-00A1B2" "P001" 2 1598 (Some "IN")) after_first_run
    = Returned (false, "Duplicate order detected") after_first_run
  ∧ run_script mouse_widgets after_first_run = Returned tt after_first_run
  ∧ page after_first_run =
      [st_info "💳 Total Amount Payable: ₹1598";
       st_success "Order validated successfully";
       st_success "Stock available (15 units)";
       st_success "Payment successful";
       st_success "Order packed successfully";
       st_info "📦 Shipment Initiated | Tracking ID: TRK-00000000";
       st_success "Order delivered successfully"]
  ∧ stock <$> (PRODUCTS after_first_run !! "P001") = Some 13.
Proof. repeat split; vm_compute; reflexivity. Qed.

(** X6: a run does not see earlier runs.  Whatever state earlier runs
    left, a run does what it does from the freshly assigned globals; so
    it never shows "Duplicate order detected", the processed orders it
    ends with hold at most the order id of this run, and the catalog it
    ends with is the initial catalog, or the initial catalog with the
    ordered quantity (at least 1, at most the initial stock) taken from
    the selected product. *)
Theorem run_script_forgets_earlier_runs (w : Widgets) (s : State) :
  run_script w s = run_script w initial_state
  ∧ (st_error "Duplicate order detected" ∉ page (final_state (run_script w s)))
  ∧ PROCESSED_ORDERS (final_state (run_script w s))
    ⊆ {[new_order_id (order_uuid w)]}
  ∧ (PRODUCTS (final_state (run_script w s)) = initial_catalog
     ∨ ∃ product : Product,
         initial_catalog !! selectbox_product w = Some product
         ∧ 1 ≤ number_input_quantity w ≤ stock product
         ∧ PRODUCTS (final_state (run_script w s))
           = <[selectbox_product w
               := take_stock (number_input_quantity w) product]> initial_catalog).
Proof.
  split; [reflexivity|].
  change (run_script w s) with (script_body w initial_state).
  destruct (script_body_fresh w initial_state eq_refl)
    as ((boxes & Hpage & Hno) & Hids & Hcat).
  split; [|split; [exact Hids|exact Hcat]].
  rewrite Hpage. exact Hno.
Qed.
